(** * mempool-engine: slab, arena and thread-tiered pool allocators

    A shallow embedding of [include/align.h], the slab engine, the arena
    engine and the pool engine ([src/pool.c]), and the properties of the
    specification checked against it.

    Conventions of the embedding.
    - The target is the LP64 configuration of [align.h] ([__x86_64__],
      [__aarch64__] and the default branch): [size_t], [uintptr_t] and
      [unsigned long] are 64-bit words, [int] is a 32-bit two's complement
      word, [CACHE_LINE_SIZE] is 64.  Words are integers of [Z]; every
      operation that can leave the range is followed by its wrap-around.
    - A pointer is its address (a 64-bit word), [0] is [NULL].  Pointer
      arithmetic is address arithmetic modulo [2^64].
    - A handle ([slab_allocator_t *], ...) is an [option]: [None] is the
      null handle.  The functions pass the object behind the handle
      explicitly and return its new contents.
    - An array obtained from [malloc] is a list with as many cells as the
      requested byte count holds; an access outside of it, and a division
      by zero, end the run in [Undefined].
    - The engines are run by one thread: every compare-and-swap finds the
      value it has just loaded, so the retry paths are never taken. *)

From stdpp Require Import base list numbers.
From Stdlib Require Import ZArith Lia.

Local Open Scope Z_scope.

(** ** Machine words and the outcome of a run *)

Definition NULL : Z := 0.

(** Reduction of a result to [size_t] / [uintptr_t]. *)
Definition wrap (z : Z) : Z := z mod 2 ^ 64.

(** Conversion of a [size_t] to [int], as done by a store into an
    [_Atomic(int)] cell. *)
Definition to_int (z : Z) : Z :=
  let r := z mod 2 ^ 32 in
  if r <? 2 ^ 31 then r else r - 2 ^ 32.

Definition is_word (z : Z) : Prop := 0 <= z < 2 ^ 64.

Inductive outcome (A : Type) : Type :=
| Done (a : A)
| Undefined.

Arguments Done {A} a.
Arguments Undefined {A}.

#[global] Instance outcome_ret : MRet outcome := fun A a => Done a.

#[global] Instance outcome_bind : MBind outcome :=
  fun A B f m => match m with Done a => f a | Undefined => Undefined end.

(** [arr[i]] as an rvalue. *)
Definition load {A : Type} (arr : list A) (i : Z) : outcome A :=
  if i <? 0 then Undefined
  else match arr !! Z.to_nat i with
       | Some x => Done x
       | None => Undefined
       end.

(** [arr[i] = x]. *)
Definition store {A : Type} (arr : list A) (i : Z) (x : A) : outcome (list A) :=
  if (0 <=? i) && (i <? Z.of_nat (length arr))
  then Done (<[Z.to_nat i := x]> arr)
  else Undefined.

(** The cells of a fresh [malloc (bytes)] seen as an array of elements of
    [elt] bytes; their contents are indeterminate ([junk]). *)
Definition fresh_array {A : Type} (bytes elt : Z) (junk : A) : list A :=
  replicate (Z.to_nat (bytes / elt)) junk.

(** ** include/align.h *)

Module Align.

Definition CACHE_LINE_SIZE : Z := 64.

(** [(sz + LINE - 1) & ~(LINE - 1)] over words of [w] bits. *)
Definition align_size (w line sz : Z) : Z :=
  Z.land ((sz + line - 1) mod 2 ^ w) (Z.lnot (line - 1) mod 2 ^ w).

Definition align_size_to_cache_line (sz : Z) : Z :=
  align_size 64 CACHE_LINE_SIZE sz.

Definition align_to_cache_line (ptr : Z) : Z :=
  align_size 64 CACHE_LINE_SIZE ptr.

Definition padding_for_alignment (ptr : Z) : Z :=
  let misalignment := ptr mod CACHE_LINE_SIZE in
  if misalignment =? 0 then 0 else CACHE_LINE_SIZE - misalignment.

Definition is_cache_aligned (ptr : Z) : bool :=
  ptr mod CACHE_LINE_SIZE =? 0.

End Align.

(** ** The slab engine *)

Module Slab.
Import Align.

Definition FREE_MARKER : Z := 0xDEADBEEFDEADBEEF.
Definition ALLOCATED_MARKER : Z := 0xA110CA7EDEAD0001.

Record block_metadata_t : Type := mk_meta {
  magic : Z;
  free : Z;
  block_index : Z
}.

Record slab_allocator_t : Type := mk_slab {
  memory : Z;
  metadata : list block_metadata_t;
  block_size : Z;
  num_blocks : Z;
  free_count : Z;
  free_list : list Z;
  free_idx : Z
}.

(** [sizeof (block_metadata_t)] and [sizeof (_Atomic(int))] under LP64. *)
Definition sizeof_block_metadata_t : Z := 24.
Definition sizeof_int : Z := 4.

(** What the C library answers to the four requests of one [slab_create]:
    the returned addresses ([0] when the request fails) and the
    indeterminate contents of the two fresh arrays. *)
Record heap : Type := mk_heap {
  h_alloc : Z;
  h_metadata : Z;
  h_free_list : Z;
  h_memory : Z;
  h_junk_meta : block_metadata_t;
  h_junk_int : Z
}.

Definition set_metadata (a : slab_allocator_t) (md : list block_metadata_t) : slab_allocator_t :=
  mk_slab (memory a) md (block_size a) (num_blocks a) (free_count a) (free_list a) (free_idx a).

Definition set_free_list (a : slab_allocator_t) (fl : list Z) : slab_allocator_t :=
  mk_slab (memory a) (metadata a) (block_size a) (num_blocks a) (free_count a) fl (free_idx a).

Definition set_free_idx (a : slab_allocator_t) (i : Z) : slab_allocator_t :=
  mk_slab (memory a) (metadata a) (block_size a) (num_blocks a) (free_count a) (free_list a) i.

Definition set_free_count (a : slab_allocator_t) (c : Z) : slab_allocator_t :=
  mk_slab (memory a) (metadata a) (block_size a) (num_blocks a) c (free_list a) (free_idx a).

Definition set_magic (m : block_metadata_t) (v : Z) : block_metadata_t :=
  mk_meta v (free m) (block_index m).

Definition set_free (m : block_metadata_t) (v : Z) : block_metadata_t :=
  mk_meta (magic m) v (block_index m).

Definition set_block_index (m : block_metadata_t) (v : Z) : block_metadata_t :=
  mk_meta (magic m) (free m) v.

(** [atomic_store (&alloc->metadata[i].magic, v)] and its two siblings. *)
Definition store_magic (a : slab_allocator_t) (i v : Z) : outcome slab_allocator_t :=
  m ← load (metadata a) i;
  md ← store (metadata a) i (set_magic m v);
  mret (set_metadata a md).

Definition store_free (a : slab_allocator_t) (i v : Z) : outcome slab_allocator_t :=
  m ← load (metadata a) i;
  md ← store (metadata a) i (set_free m v);
  mret (set_metadata a md).

Definition store_block_index (a : slab_allocator_t) (i v : Z) : outcome slab_allocator_t :=
  m ← load (metadata a) i;
  md ← store (metadata a) i (set_block_index m v);
  mret (set_metadata a md).

(** The initialisation loop of [slab_create]: [k] iterations are left and
    the loop variable is [i]. *)
Fixpoint init_blocks (k : nat) (i : Z) (a : slab_allocator_t) : outcome slab_allocator_t :=
  match k with
  | O => mret a
  | S k' =>
      fl ← store (free_list a) i (to_int i);
      a ← store_magic (set_free_list a fl) i FREE_MARKER;
      a ← store_free a i 1;
      a ← store_block_index a i i;
      init_blocks k' (i + 1) a
  end.

Definition slab_create (h : heap) (block_size num_blocks : Z)
  : outcome (option slab_allocator_t) :=
  if (block_size =? 0) || (num_blocks =? 0) then mret None
  else
    let aligned_block_size := align_size_to_cache_line block_size in
    if h_alloc h =? NULL then mret None
    else if h_metadata h =? NULL then mret None
    else if h_free_list h =? NULL then mret None
    else if h_memory h =? NULL then mret None
    else
      let md := fresh_array (wrap (num_blocks * sizeof_block_metadata_t))
                  sizeof_block_metadata_t (h_junk_meta h) in
      let fl := fresh_array (wrap (num_blocks * sizeof_int)) sizeof_int (h_junk_int h) in
      let a := mk_slab (h_memory h) md aligned_block_size num_blocks
                 num_blocks fl num_blocks in
      a ← init_blocks (Z.to_nat num_blocks) 0 a;
      mret (Some a).

(** The byte count that [slab_create] asks [aligned_alloc] for. *)
Definition total_size (a : slab_allocator_t) : Z :=
  wrap (block_size a * num_blocks a).

Definition slab_alloc (alloc : option slab_allocator_t)
  : outcome (Z * option slab_allocator_t) :=
  match alloc with
  | None => mret (NULL, None)
  | Some a =>
      let old_idx := free_idx a in
      if old_idx =? 0 then mret (NULL, Some a)
      else
        let new_idx := wrap (old_idx - 1) in
        let a := set_free_idx a new_idx in
        block_idx ← load (free_list a) new_idx;
        if (block_idx <? 0) || (num_blocks a <=? block_idx) then mret (NULL, Some a)
        else
          let ptr := wrap (memory a + wrap (block_idx * block_size a)) in
          a ← store_magic a block_idx ALLOCATED_MARKER;
          a ← store_free a block_idx 0;
          let a := set_free_count a (wrap (free_count a - 1)) in
          mret (ptr, Some a)
  end.

Definition slab_free (alloc : option slab_allocator_t) (ptr : Z)
  : outcome (Z * option slab_allocator_t) :=
  match alloc with
  | None => mret (-1, None)
  | Some a =>
      if ptr =? NULL then mret (-1, Some a)
      else if ptr <? memory a then mret (-1, Some a)
      else
        let offset := wrap (ptr - memory a) in
        if block_size a =? 0 then Undefined
        else if negb (offset mod block_size a =? 0) then mret (-1, Some a)
        else
          let block_idx := offset / block_size a in
          if num_blocks a <=? block_idx then mret (-1, Some a)
          else
            meta ← load (metadata a) block_idx;
            if negb (magic meta =? ALLOCATED_MARKER) then mret (-1, Some a)
            else if negb (free meta =? 0) then mret (-1, Some a)
            else
              a ← store_free a block_idx 1;
              a ← store_magic a block_idx FREE_MARKER;
              let old_idx := free_idx a in
              let new_idx := wrap (old_idx + 1) in
              if num_blocks a <? new_idx then mret (-1, Some a)
              else
                fl ← store (free_list a) old_idx (to_int block_idx);
                let a := set_free_list a fl in
                let a := set_free_idx a new_idx in
                let a := set_free_count a (wrap (free_count a + 1)) in
                mret (0, Some a)
  end.

(** [slab_stats]: the two out-parameters are cells ([None] is a null
    pointer); the result is the return value and the cells afterwards. *)
Definition slab_stats (alloc : option slab_allocator_t) (used_blocks free_blocks : option Z)
  : Z * option Z * option Z :=
  match alloc, used_blocks, free_blocks with
  | Some a, Some _, Some _ =>
      let free_blocks' := free_count a in
      let used_blocks' := wrap (num_blocks a - free_blocks') in
      (0, Some used_blocks', Some free_blocks')
  | _, _, _ => (-1, used_blocks, free_blocks)
  end.

End Slab.

(** ** The arena engine *)

Module Arena.
Import Align.

Record arena_allocator_t : Type := mk_arena {
  memory : Z;
  capacity : Z;
  offset : Z
}.

(** The addresses answered to the two requests of one [arena_create]. *)
Record heap : Type := mk_heap {
  h_alloc : Z;
  h_memory : Z
}.

Definition set_offset (a : arena_allocator_t) (o : Z) : arena_allocator_t :=
  mk_arena (memory a) (capacity a) o.

Definition arena_create (h : heap) (capacity : Z) : option arena_allocator_t :=
  if capacity =? 0 then None
  else
    let capacity := align_size_to_cache_line capacity in
    if h_alloc h =? NULL then None
    else if h_memory h =? NULL then None
    else Some (mk_arena (h_memory h) capacity 0).

(** The [for (;;)] loop is left at its first iteration: either through the
    capacity test or through the compare-and-swap, which succeeds. *)
Definition arena_alloc (alloc : option arena_allocator_t) (size : Z)
  : Z * option arena_allocator_t :=
  match alloc with
  | None => (NULL, None)
  | Some a =>
      if size =? 0 then (NULL, Some a)
      else
        let size := align_size_to_cache_line size in
        let old_offset := offset a in
        let new_offset := wrap (old_offset + size) in
        if capacity a <? new_offset then (NULL, Some a)
        else (wrap (memory a + old_offset), Some (set_offset a new_offset))
  end.

Definition arena_reset (alloc : option arena_allocator_t) : option arena_allocator_t :=
  match alloc with
  | None => None
  | Some a => Some (set_offset a 0)
  end.

(** [arena_stats]: out-parameters as cells, as for [slab_stats]. *)
Definition arena_stats (alloc : option arena_allocator_t) (used capacity_out : option Z)
  : Z * option Z * option Z :=
  match alloc, used, capacity_out with
  | Some a, Some _, Some _ => (0, Some (offset a), Some (capacity a))
  | _, _, _ => (-1, used, capacity_out)
  end.

End Arena.

(** ** The pool engine *)

Module Pool.
Import Align.

Record thread_local_cache_t : Type := mk_cache {
  local_cache : list Z;
  cache_size : Z;
  cache_count : Z
}.

Record mempool_t : Type := mk_pool {
  global_slab : option Slab.slab_allocator_t;
  block_size : Z;
  blocks_per_thread : Z;
  initialized : Z
}.

(** The value stored under [tls_key] for the running thread: [None] while
    [pthread_getspecific] answers [NULL]. *)
Definition tls : Type := option thread_local_cache_t.

(** The answers to the two requests of [get_thread_local_cache] and the
    indeterminate contents of the fresh slot array. *)
Record heap : Type := mk_heap {
  h_cache : Z;
  h_local_cache : Z;
  h_junk_ptr : Z
}.

Definition sizeof_ptr : Z := 8.

Definition set_cache_count (c : thread_local_cache_t) (n : Z) : thread_local_cache_t :=
  mk_cache (local_cache c) (cache_size c) n.

Definition set_local_cache (c : thread_local_cache_t) (l : list Z) : thread_local_cache_t :=
  mk_cache l (cache_size c) (cache_count c).

Definition set_global_slab (p : mempool_t) (s : option Slab.slab_allocator_t) : mempool_t :=
  mk_pool s (block_size p) (blocks_per_thread p) (initialized p).

(** The returned cache is the object now stored under the key, so one
    [option] stands for both; [None] is the [NULL] result, which leaves the
    key unset. *)
Definition get_thread_local_cache (t : tls) (h : heap) (blocks_per_thread : Z) : tls :=
  match t with
  | Some cache => Some cache
  | None =>
      if h_cache h =? NULL then None
      else if h_local_cache h =? NULL then None
      else
        Some (mk_cache
                (fresh_array (wrap (blocks_per_thread * sizeof_ptr)) sizeof_ptr (h_junk_ptr h))
                blocks_per_thread 0)
  end.

(** [h_pool] is the answer to [malloc (sizeof (mempool_t))]. *)
Definition pool_create (h_pool : Z) (h : Slab.heap) (block_size blocks_per_thread total_blocks : Z)
  : outcome (option mempool_t) :=
  if (block_size =? 0) || (blocks_per_thread =? 0) || (total_blocks =? 0) then mret None
  else if h_pool =? NULL then mret None
  else
    s ← Slab.slab_create h block_size total_blocks;
    match s with
    | None => mret None
    | Some _ => mret (Some (mk_pool s block_size blocks_per_thread 1))
    end.

Definition pool_alloc (pool : option mempool_t) (t : tls) (h : heap)
  : outcome (Z * option mempool_t * tls) :=
  match pool with
  | None => mret (NULL, None, t)
  | Some p =>
      if initialized p =? 0 then mret (NULL, Some p, t)
      else
        match get_thread_local_cache t h (blocks_per_thread p) with
        | None => mret (NULL, Some p, None)
        | Some cache =>
            let cache_count := cache_count cache in
            if 0 <? cache_count then
              let new_count := wrap (cache_count - 1) in
              let cache := set_cache_count cache new_count in
              ptr ← load (local_cache cache) new_count;
              mret (ptr, Some p, Some cache)
            else
              '(ptr, s) ← Slab.slab_alloc (global_slab p);
              mret (ptr, Some (set_global_slab p s), Some cache)
        end
  end.

Definition pool_free (pool : option mempool_t) (t : tls) (h : heap) (ptr : Z)
  : outcome (Z * option mempool_t * tls) :=
  match pool with
  | None => mret (-1, None, t)
  | Some p =>
      if (ptr =? NULL) || (initialized p =? 0) then mret (-1, Some p, t)
      else
        match get_thread_local_cache t h (blocks_per_thread p) with
        | None =>
            '(r, s) ← Slab.slab_free (global_slab p) ptr;
            mret (r, Some (set_global_slab p s), None)
        | Some cache =>
            let cache_count := cache_count cache in
            if cache_count <? blocks_per_thread p then
              let cache := set_cache_count cache (wrap (cache_count + 1)) in
              l ← store (local_cache cache) cache_count ptr;
              mret (0, Some p, Some (set_local_cache cache l))
            else
              '(r, s) ← Slab.slab_free (global_slab p) ptr;
              mret (r, Some (set_global_slab p s), Some cache)
        end
  end.

Definition pool_stats (pool : option mempool_t) (allocated free_count : option Z)
  : Z * option Z * option Z :=
  match pool, allocated, free_count with
  | Some p, Some _, Some _ => Slab.slab_stats (global_slab p) allocated free_count
  | _, _, _ => (-1, allocated, free_count)
  end.

End Pool.

(** * Specification vocabulary *)

Import Align.

(** The contract of [aligned_alloc (alignment, size)]: a non-null answer is
    the address of [size] bytes inside the address space, at a multiple of
    [alignment]. *)
Definition aligned_alloc_ok (alignment size p : Z) : Prop :=
  is_word p /\ (p <> NULL -> p mod alignment = 0 /\ p + size <= 2 ^ 64).

(** [m] is the smallest multiple of [line] that is at least [sz]. *)
Definition smallest_multiple_ge (line sz m : Z) : Prop :=
  (line | m) /\ sz <= m /\ forall m', (line | m') -> sz <= m' -> m <= m'.

Definition line_aligned (p : Z) : Prop := p mod CACHE_LINE_SIZE = 0.

(** * Alignment utilities *)

(** Linear arithmetic with division and remainder by constants. *)
Ltac zlia := Z.div_mod_to_equations; lia.

Lemma wrap_range (z : Z) : 0 <= wrap z < 2 ^ 64.
Proof. unfold wrap. apply Z.mod_pos_bound. lia. Qed.

Lemma wrap_small (z : Z) : 0 <= z < 2 ^ 64 -> wrap z = z.
Proof. intros Hz. unfold wrap. apply Z.mod_small. exact Hz. Qed.

Lemma wrap_line_aligned (z : Z) : line_aligned z -> line_aligned (wrap z).
Proof.
  unfold line_aligned, wrap, CACHE_LINE_SIZE. intros Hz.
  rewrite Z.mod_mod_divide; [exact Hz |].
  exists (2 ^ 58). reflexivity.
Qed.

Lemma land_line_mask (a : Z) :
  0 <= a < 2 ^ 64 ->
  Z.land a (Z.lnot (CACHE_LINE_SIZE - 1) mod 2 ^ 64) = 64 * (a / 64).
Proof.
  intros Ha.
  change (CACHE_LINE_SIZE - 1) with (Z.ones 6).
  rewrite <- (Z.land_ones (Z.lnot (Z.ones 6)) 64) by lia.
  rewrite (Z.land_comm (Z.lnot _)), Z.land_assoc.
  rewrite (Z.land_ones a 64) by lia.
  rewrite (Z.mod_small a) by lia.
  rewrite <- Z.ldiff_land, Z.ldiff_ones_r by lia.
  rewrite Z.shiftl_mul_pow2, Z.shiftr_div_pow2 by lia.
  change (2 ^ 6) with 64. lia.
Qed.

Lemma align_size_to_cache_line_eq (sz : Z) :
  align_size_to_cache_line sz = 64 * (wrap (sz + 63) / 64).
Proof.
  unfold align_size_to_cache_line, align_size.
  replace (sz + CACHE_LINE_SIZE - 1) with (sz + 63) by (unfold CACHE_LINE_SIZE; lia).
  rewrite land_line_mask; [reflexivity | apply wrap_range].
Qed.

Lemma align_size_to_cache_line_aligned (sz : Z) :
  line_aligned (align_size_to_cache_line sz).
Proof.
  unfold line_aligned, CACHE_LINE_SIZE. rewrite align_size_to_cache_line_eq.
  rewrite Z.mul_comm. apply Z.mod_mul. lia.
Qed.

Lemma align_size_to_cache_line_range (sz : Z) :
  0 <= align_size_to_cache_line sz < 2 ^ 64.
Proof.
  rewrite align_size_to_cache_line_eq.
  pose proof (wrap_range (sz + 63)) as Hw.
  change (2 ^ 64) with 18446744073709551616 in *. zlia.
Qed.

(** Below the last line of the address space the rounding is exact. *)
Lemma align_size_to_cache_line_exact (sz : Z) :
  0 <= sz <= 2 ^ 64 - 64 ->
  align_size_to_cache_line sz = 64 * ((sz + 63) / 64).
Proof.
  intros Hsz. rewrite align_size_to_cache_line_eq, wrap_small; [reflexivity|].
  change (2 ^ 64) with 18446744073709551616 in *. zlia.
Qed.

(** In the last line it wraps to zero. *)
Lemma align_size_to_cache_line_wraps (sz : Z) :
  2 ^ 64 - 64 < sz < 2 ^ 64 -> align_size_to_cache_line sz = 0.
Proof.
  intros Hsz. rewrite align_size_to_cache_line_eq. unfold wrap.
  change (2 ^ 64) with 18446744073709551616 in *. zlia.
Qed.

(** The same rounding on the 32-bit ARM configuration ([size_t] of 32 bits,
    [CACHE_LINE_SIZE] 32). *)
Lemma align_size_arm32 (sz : Z) :
  0 <= sz < 2 ^ 32 ->
  exists m, smallest_multiple_ge 32 sz m /\ align_size 32 32 sz = m mod 2 ^ 32.
Proof.
  intros Hsz. exists (32 * ((sz + 31) / 32)). split.
  - split; [exists ((sz + 31) / 32); lia|]. split; [zlia|].
    intros m' [q ->] Hq. zlia.
  - unfold align_size.
    change (32 - 1) with (Z.ones 5).
    rewrite <- (Z.land_ones (Z.lnot (Z.ones 5)) 32) by lia.
    rewrite (Z.land_comm (Z.lnot _)), Z.land_assoc.
    rewrite (Z.land_ones _ 32) by lia.
    rewrite Z.mod_mod by lia.
    rewrite <- Z.ldiff_land, Z.ldiff_ones_r by lia.
    rewrite Z.shiftl_mul_pow2, Z.shiftr_div_pow2 by lia.
    change (2 ^ 5) with 32. change (2 ^ 32) with 4294967296 in *.
    change (Z.ones 5) with 31. zlia.
Qed.

(** C9.  For every size [sz] of type [size_t],
    [align_size_to_cache_line sz] is the smallest multiple of [LINE] that
    is at least [sz], taken modulo [2^64] (the machine word). *)
Theorem align_size_to_cache_line_smallest_multiple (sz : Z) :
  0 <= sz < 2 ^ 64 ->
  exists m, smallest_multiple_ge CACHE_LINE_SIZE sz m /\
            align_size_to_cache_line sz = m mod 2 ^ 64.
Proof.
  intros Hsz. exists (64 * ((sz + 63) / 64)). split.
  - unfold smallest_multiple_ge, CACHE_LINE_SIZE.
    split; [exists ((sz + 63) / 64); lia|]. split; [zlia|].
    intros m' [q ->] Hq. zlia.
  - rewrite align_size_to_cache_line_eq. unfold wrap.
    change (2 ^ 64) with 18446744073709551616 in *. zlia.
Qed.

Lemma align_size_to_cache_line_smallest_multiple_witness :
  0 <= 65 < 2 ^ 64 /\
  exists m, smallest_multiple_ge CACHE_LINE_SIZE 65 m /\
            align_size_to_cache_line 65 = m mod 2 ^ 64.
Proof.
  split; [lia|]. apply (align_size_to_cache_line_smallest_multiple 65). lia.
Defined.

(** * The arena engine *)

Section ArenaFacts.
Import Arena.

Lemma arena_create_some (h : heap) (cap : Z) (a : arena_allocator_t) :
  arena_create h cap = Some a ->
  cap <> 0 /\ h_memory h <> NULL /\
  a = mk_arena (h_memory h) (align_size_to_cache_line cap) 0.
Proof.
  unfold arena_create.
  destruct (Z.eqb_spec cap 0); [discriminate|].
  destruct (Z.eqb_spec (h_alloc h) NULL); [discriminate|].
  destruct (Z.eqb_spec (h_memory h) NULL); [discriminate|].
  intros [= <-]. auto.
Qed.

(** The states an arena goes through: created by [arena_create] on a heap
    that honours the contract of [aligned_alloc], then changed by
    [arena_alloc] and [arena_reset]. *)
Inductive arena_reachable : arena_allocator_t -> Prop :=
| arena_reach_create h cap a :
    aligned_alloc_ok CACHE_LINE_SIZE (align_size_to_cache_line cap) (h_memory h) ->
    arena_create h cap = Some a ->
    arena_reachable a
| arena_reach_alloc a size p a' :
    arena_reachable a ->
    arena_alloc (Some a) size = (p, Some a') ->
    arena_reachable a'
| arena_reach_reset a a' :
    arena_reachable a ->
    arena_reset (Some a) = Some a' ->
    arena_reachable a'.

Definition arena_inv (a : arena_allocator_t) : Prop :=
  is_word (memory a) /\ memory a <> NULL /\ line_aligned (memory a) /\
  memory a + capacity a <= 2 ^ 64 /\
  line_aligned (capacity a) /\ line_aligned (offset a) /\
  0 <= offset a <= capacity a.

Lemma line_aligned_add (x y : Z) : line_aligned x -> line_aligned y -> line_aligned (x + y).
Proof. unfold line_aligned, CACHE_LINE_SIZE. intros Hx Hy. zlia. Qed.

Lemma arena_alloc_cases (a : arena_allocator_t) (size p : Z) (a' : arena_allocator_t) :
  arena_alloc (Some a) size = (p, Some a') ->
  (p = NULL /\ a' = a) \/
  (size <> 0 /\
   wrap (offset a + align_size_to_cache_line size) <= capacity a /\
   p = wrap (memory a + offset a) /\
   a' = set_offset a (wrap (offset a + align_size_to_cache_line size))).
Proof.
  unfold arena_alloc.
  destruct (Z.eqb_spec size 0); [intros [= <- <-]; left; split; reflexivity|].
  destruct (Z.ltb_spec (capacity a) (wrap (offset a + align_size_to_cache_line size)));
    intros [= <- <-]; [left; split; reflexivity|].
  right. repeat split; assumption.
Qed.

Lemma arena_reachable_inv (a : arena_allocator_t) : arena_reachable a -> arena_inv a.
Proof.
  unfold arena_inv, is_word.
  induction 1 as [h cap a [Hw Hok] Hc|a size p a' _ IH Ha|a a' _ IH Hr].
  - apply arena_create_some in Hc as (Hcap & Hm & ->).
    destruct (Hok Hm) as [Hal Hfit]. unfold is_word in Hw.
    pose proof (align_size_to_cache_line_range cap).
    pose proof (align_size_to_cache_line_aligned cap).
    simpl. split_and!; first [assumption | reflexivity | lia].
  - apply arena_alloc_cases in Ha as [[_ ->]|(_ & Hle & _ & ->)]; [exact IH|].
    destruct IH as (? & ? & ? & ? & ? & ? & ?).
    pose proof (wrap_range (offset a + align_size_to_cache_line size)).
    assert (line_aligned (wrap (offset a + align_size_to_cache_line size))).
    { apply wrap_line_aligned, line_aligned_add; [assumption|].
      apply align_size_to_cache_line_aligned. }
    simpl. split_and!; first [assumption | lia].
  - injection Hr as <-. destruct IH as (? & ? & ? & ? & ? & ? & ?).
    simpl. split_and!; first [assumption | reflexivity | lia].
Qed.

(** Every pointer handed out by a reachable arena is line-aligned. *)
Lemma arena_alloc_aligned (a : arena_allocator_t) (size p : Z) (a' : option arena_allocator_t) :
  arena_reachable a -> arena_alloc (Some a) size = (p, a') -> line_aligned p.
Proof.
  intros Hr Ha. apply arena_reachable_inv in Hr as (? & ? & ? & ? & ? & ? & ?).
  assert (exists a'', a' = Some a'') as [a'' ->].
  { unfold arena_alloc in Ha. repeat case_match; injection Ha as <- <-; eauto. }
  apply arena_alloc_cases in Ha as [[-> _]|(_ & _ & -> & _)]; [reflexivity|].
  apply wrap_line_aligned, line_aligned_add; assumption.
Qed.

(** When the bump does not leave the word, a request beyond the remaining
    capacity is refused and leaves the arena as it is. *)
Lemma arena_alloc_exhausted (a : arena_allocator_t) (size : Z) :
  0 <= offset a ->
  offset a + align_size_to_cache_line size < 2 ^ 64 ->
  capacity a - offset a < align_size_to_cache_line size ->
  arena_alloc (Some a) size = (NULL, Some a).
Proof.
  intros H0 Hno Hex. unfold arena_alloc.
  destruct (Z.eqb_spec size 0); [reflexivity|].
  pose proof (align_size_to_cache_line_range size).
  rewrite wrap_small by lia.
  destruct (Z.ltb_spec (capacity a) (offset a + align_size_to_cache_line size)); [reflexivity|lia].
Qed.

(** C5.  Scenario S2: on the arena made by [arena_create (192)], two
    [arena_alloc (a, 64)] return distinct non-null [p1] and [p2 = p1 + 64],
    [arena_alloc (a, 65)] then returns null, and after [arena_reset] an
    [arena_alloc (a, 64)] returns [p1] again; [arena_stats] right after
    the reset reports [used = 0]. *)
Theorem arena_bump_reset_scenario (h : heap) (a : arena_allocator_t) (u c : Z) :
  aligned_alloc_ok CACHE_LINE_SIZE (align_size_to_cache_line 192) (h_memory h) ->
  arena_create h 192 = Some a ->
  exists p1 a1 p2 a2 a3 a4 a5,
    arena_alloc (Some a) 64 = (p1, a1) /\
    arena_alloc a1 64 = (p2, a2) /\
    arena_alloc a2 65 = (NULL, a3) /\
    arena_reset a3 = a4 /\
    arena_stats a4 (Some u) (Some c) = (0, Some 0, Some 192) /\
    arena_alloc a4 64 = (p1, a5) /\
    p1 <> NULL /\ p2 <> NULL /\ p1 <> p2 /\ p2 = p1 + 64.
Proof.
  intros [Hw Hok] Hc. apply arena_create_some in Hc as (_ & Hm & ->).
  destruct (Hok Hm) as [_ Hfit].
  change (align_size_to_cache_line 192) with 192 in *.
  set (m := h_memory h) in *. unfold is_word in Hw.
  exists m, (Some (mk_arena m 192 64)), (m + 64), (Some (mk_arena m 192 128)),
    (Some (mk_arena m 192 128)), (Some (mk_arena m 192 0)), (Some (mk_arena m 192 64)).
  unfold arena_alloc, arena_reset, arena_stats, set_offset; simpl.
  change (align_size_to_cache_line 64) with 64.
  change (align_size_to_cache_line 65) with 128.
  change (wrap (0 + 64)) with 64. change (wrap (64 + 64)) with 128.
  change (wrap (128 + 128)) with 256. simpl.
  rewrite !wrap_small by (unfold NULL in *; lia).
  replace (m + 0) with m by lia.
  repeat split; unfold NULL in *; try lia.
Qed.

Lemma arena_bump_reset_scenario_witness :
  aligned_alloc_ok CACHE_LINE_SIZE (align_size_to_cache_line 192) 4096 /\
  arena_create (mk_heap 1 4096) 192 = Some (mk_arena 4096 192 0) /\
  exists p1 a1 p2 a2 a3 a4 a5,
    arena_alloc (Some (mk_arena 4096 192 0)) 64 = (p1, a1) /\
    arena_alloc a1 64 = (p2, a2) /\
    arena_alloc a2 65 = (NULL, a3) /\
    arena_reset a3 = a4 /\
    arena_stats a4 (Some 7) (Some 7) = (0, Some 0, Some 192) /\
    arena_alloc a4 64 = (p1, a5) /\
    p1 <> NULL /\ p2 <> NULL /\ p1 <> p2 /\ p2 = p1 + 64.
Proof.
  assert (aligned_alloc_ok CACHE_LINE_SIZE (align_size_to_cache_line 192) 4096) as Hok.
  { split; [unfold is_word; lia|]. intros _. split; [reflexivity|].
    vm_compute. discriminate. }
  split; [exact Hok|]. split; [reflexivity|].
  apply (arena_bump_reset_scenario (mk_heap 1 4096) (mk_arena 4096 192 0) 7 7).
  - exact Hok.
  - reflexivity.
Defined.

(** C7, at the input where it fails.  The arena of [arena_create (192)]
    after one [arena_alloc (a, 64)] has 128 bytes left.  A request of
    [2^64 - 64] bytes is its own rounding and exceeds what is left, yet
    [old_offset + size] wraps to 0, passes the capacity test, and the call
    returns [memory + 64] and sets the offset back to 0. *)
Theorem arena_alloc_offset_wraps :
  let h := mk_heap 1 4096 in
  let big := 2 ^ 64 - 64 in
  exists a0 a1,
    arena_create h 192 = Some a0 /\
    arena_alloc (Some a0) 64 = (4096, Some a1) /\
    arena_stats (Some a1) (Some 0) (Some 0) = (0, Some 64, Some 192) /\
    capacity a1 - offset a1 < align_size_to_cache_line big /\
    arena_alloc (Some a1) big = (4160, Some (mk_arena 4096 192 0)) /\
    arena_stats (Some (mk_arena 4096 192 0)) (Some 0) (Some 0) = (0, Some 0, Some 192).
Proof.
  exists (mk_arena 4096 192 0), (mk_arena 4096 192 64).
  repeat split; vm_compute; reflexivity.
Qed.

End ArenaFacts.
